(** * ginhtmx: conditional rendering of HTML templates for HTMX requests

    A shallow embedding of package [ginhtmx] (file [ginhtmx/ginhtmx.go] and
    the [ModelDecorator] interface) together with the small part of its
    collaborators that the package calls: [io.Writer], the [ExecuteTemplate]
    method of [html/template] and the [Context] / [ResponseWriter] pair of
    gin.  The collaborators are libraries, not code of the package; they are
    modelled after their documented behaviour and kept in modules of their
    own so that the package code reads as it does in Go. *)

From Stdlib Require Import ZArith Ascii String List Bool Lia.
From stdpp Require Import base option strings list gmap.

Open Scope string_scope.
Open Scope Z_scope.

(** ** Values stored in a model

    A [gin.H] is a [map[string]any].  The dynamic values a template model
    holds are represented by a small universe; [template_HTML] is the Go type
    [template.HTML], a string that the escaper of [html/template] emits as
    it is. *)

Inductive value : Type :=
  | Str (s : string)
  | template_HTML (s : string)
  | Int (n : Z)
  | Bool (b : bool).

#[global] Instance value_eq_dec : EqDecision value.
Proof. solve_decision. Defined.

(** The concatenation of a list of texts, in order. *)
Definition joined (l : list string) : string := fold_right String.append "" l.

(** ** io.Writer *)

(** The one method of [io.Writer].  Both writers used by the package accept
    every slice they are given, so [Write] is a total state change. *)
Class Writer (W : Type) := Write : W -> string -> W.

(** ** html/template *)

Module html_template.

(** A parsed template set.  [run name data] is what executing the template
    called [name] against [data] does: the pieces of text it hands to its
    writer, in order, and the error it ends with, if any.  An unknown name
    or a failing action ends the execution early; the pieces written before
    that stay written. *)
Record Template : Type := { run : string -> gmap string value -> list string * option string }.

(** [Template.ExecuteTemplate(wr, name, data)].  The receiver is a
    pointer: on [nil] ([None]) the method dereferences it and the Go runtime
    panics, which is the [None] result. *)
Definition ExecuteTemplate {W : Type} `{Writer W} (t : option Template) (wr : W)
    (name : string) (data : gmap string value) : option (W * option string) :=
  match t with
  | None => None
  | Some t =>
      let '(pieces, err) := run t name data in
      Some (fold_left Write pieces wr, err)
  end.

(** The text an execution produces, whatever its error. *)
Definition output (t : Template) (name : string) (data : gmap string value) : string :=
  joined (fst (run t name data)).

End html_template.

(** ** net/http header names *)

Module http.

Definition StatusOK : Z := 200.
Definition StatusNoContent : Z := 204.
Definition StatusNotModified : Z := 304.

Definition isLower (c : ascii) : bool := (97 <=? nat_of_ascii c)%nat && (nat_of_ascii c <=? 122)%nat.
Definition isUpper (c : ascii) : bool := (65 <=? nat_of_ascii c)%nat && (nat_of_ascii c <=? 90)%nat.
Definition isDigit (c : ascii) : bool := (48 <=? nat_of_ascii c)%nat && (nat_of_ascii c <=? 57)%nat.

Definition toUpper (c : ascii) : ascii :=
  if isLower c then ascii_of_nat (nat_of_ascii c - 32) else c.
Definition toLower (c : ascii) : ascii :=
  if isUpper c then ascii_of_nat (nat_of_ascii c + 32) else c.

(** The bytes allowed in a header field name (an RFC 7230 token). *)
Definition validHeaderFieldByte (c : ascii) : bool :=
  isLower c || isUpper c || isDigit c
  || bool_decide (c ∈ list_ascii_of_string "!#$%&'*+-.^_`|~").

Fixpoint canonical (upper : bool) (s : string) : string :=
  match s with
  | EmptyString => EmptyString
  | String c rest =>
      String (if upper then toUpper c else toLower c)
             (canonical (Ascii.eqb c "-") rest)
  end.

(** [http.CanonicalHeaderKey]: the first letter and every letter after a
    hyphen in upper case, the others in lower case; a name with a byte that
    is not allowed is returned as it is. *)
Definition CanonicalHeaderKey (s : string) : string :=
  if forallb validHeaderFieldByte (list_ascii_of_string s) then canonical true s else s.

(** [Header.Get]: the first value stored under the canonical form of
    [key], or the empty string. *)
Definition Get (h : gmap string (list string)) (key : string) : string :=
  match h !! CanonicalHeaderKey key with
  | Some (v :: _) => v
  | _ => ""
  end.

End http.

(** ** gin *)

Module gin.

(** gin's [responseWriter].  [size] is [noWritten] until the status line
    has gone out; [sent] is the status handed to the underlying
    [http.ResponseWriter] at that moment and [body] the bytes handed to it
    since. *)
Record responseWriter : Type := mkWriter {
  Header : gmap string (list string);
  status : Z;
  size : Z;
  sent : option Z;
  body : string
}.

Definition noWritten : Z := -1.
Definition defaultStatus : Z := http.StatusOK.

Definition Written (w : responseWriter) : bool := negb (size w =? noWritten).

Definition WriteHeader (w : responseWriter) (code : Z) : responseWriter :=
  if (0 <? code) && negb (status w =? code) then
    if Written w then w
    else mkWriter (Header w) code (size w) (sent w) (body w)
  else w.

Definition WriteHeaderNow (w : responseWriter) : responseWriter :=
  if Written w then w
  else mkWriter (Header w) (status w) 0 (Some (status w)) (body w).

Definition responseWriter_Write (w : responseWriter) (data : string) : responseWriter :=
  let w := WriteHeaderNow w in
  mkWriter (Header w) (status w) (size w + Z.of_nat (String.length data)) (sent w)
           (body w +:+ data).

#[global] Instance responseWriter_Writer : Writer responseWriter := responseWriter_Write.

(** The part of [gin.Context] the package touches: the headers of the
    request and the response writer. *)
Record Context : Type := mkContext {
  Request_Header : gmap string (list string);
  Writer : responseWriter
}.

(** What gin hands to a handler for a request: nothing written, status
    [200], no response header. *)
Definition reset (request_header : gmap string (list string)) : Context :=
  mkContext request_header (mkWriter ∅ defaultStatus noWritten None "").

Definition Status (c : Context) (code : Z) : Context :=
  mkContext (Request_Header c) (WriteHeader (Writer c) code).

Definition GetHeader (c : Context) (key : string) : string :=
  http.Get (Request_Header c) key.

Definition bodyAllowedForStatus (code : Z) : bool :=
  if (100 <=? code) && (code <=? 199) then false
  else if code =? http.StatusNoContent then false
  else if code =? http.StatusNotModified then false
  else true.

(** [render.writeContentType]: a content type chosen earlier is kept. *)
Definition writeContentType (w : responseWriter) (v : list string) : responseWriter :=
  match Header w !! "Content-Type" with
  | Some (_ :: _) => w
  | _ => mkWriter (<["Content-Type" := v]> (Header w)) (status w) (size w) (sent w) (body w)
  end.

(** [Context.Data(code, contentType, data)]: "writes some data into the
    body stream and updates the HTTP code".  It is [Context.Render] with a
    [render.Data]: the code goes through [Status] first. *)
Definition Data (c : Context) (code : Z) (contentType : string) (data : string) : Context :=
  let c := Status c code in
  if bodyAllowedForStatus code then
    mkContext (Request_Header c)
              (responseWriter_Write (writeContentType (Writer c) [contentType]) data)
  else
    mkContext (Request_Header c)
              (WriteHeaderNow (writeContentType (Writer c) [contentType])).


End gin.

(** ** Package ginhtmx *)

Module ginhtmx.

(** *** The store

    A [gin.H] is a Go map, hence a reference: the caller, the decorator and
    [RenderWithStatus] may all hold the same map.  Maps live in a heap and a
    [gin.H] value is the address of one, or [nil]. *)

Definition loc : Type := positive.
Definition gin_H : Type := option loc.

(** The entries of the map [data] denotes; a [nil] map reads as empty. *)
Definition entries (h : gmap loc (gmap string value)) (data : gin_H) : gmap string value :=
  match data with
  | Some l => default ∅ (h !! l)
  | None => ∅
  end.

(** What the collaborators were asked to do, in order. *)
Inductive event : Type :=
  | Decorate (data : gin_H)
  | Execute (name : string) (model : gmap string value).

#[global] Instance event_eq_dec : EqDecision event.
Proof. solve_decision. Defined.

Record World : Type := mkWorld {
  ctx : gin.Context;
  heap : gmap loc (gmap string value);
  trace : list event
}.

(** *** Computations: state, and the two runtime panics of the package *)

Inductive panic : Type :=
  | nil_pointer_dereference
  | assignment_to_entry_in_nil_map.

Inductive outcome (A : Type) : Type :=
  | Done (a : A) (w : World)
  | Panicked (p : panic) (w : World).
Arguments Done {A} a w.
Arguments Panicked {A} p w.

Definition M (A : Type) : Type := World -> outcome A.

Definition ret {A : Type} (a : A) : M A := fun w => Done a w.

Definition bind {A B : Type} (m : M A) (k : A -> M B) : M B :=
  fun w =>
    match m w with
    | Done a w' => k a w'
    | Panicked p w' => Panicked p w'
    end.

Notation "'let!' x ':=' m 'in' k" := (bind m (fun x => k))
  (at level 10, x name, m at level 100, k at level 200).
Notation "m ';;;' k" := (bind m (fun _ => k))
  (at level 100, k at level 200, right associativity).

Definition final {A : Type} (o : outcome A) : World :=
  match o with
  | Done _ w => w
  | Panicked _ w => w
  end.

Definition completes {A : Type} (o : outcome A) : bool :=
  match o with
  | Done _ _ => true
  | Panicked _ _ => false
  end.

Definition panics {A : Type} (o : outcome A) : option panic :=
  match o with
  | Done _ _ => None
  | Panicked p _ => Some p
  end.

(** Calls on [ginContext], the context of the request, which the world
    holds. *)
Definition ginContext_Status (code : Z) : M unit :=
  fun w => Done tt (mkWorld (gin.Status (ctx w) code) (heap w) (trace w)).

Definition ginContext_GetHeader (key : string) : M string :=
  fun w => Done (gin.GetHeader (ctx w) key) w.

Definition ginContext_Data (code : Z) (contentType data : string) : M unit :=
  fun w => Done tt (mkWorld (gin.Data (ctx w) code contentType data) (heap w) (trace w)).

(** [data[key] = v]: a panic on a [nil] map. *)
Definition mapassign (data : gin_H) (key : string) (v : value) : M unit :=
  fun w =>
    match data with
    | None => Panicked assignment_to_entry_in_nil_map w
    | Some l =>
        Done tt (mkWorld (ctx w) (<[l := <[key := v]> (entries (heap w) data)]> (heap w)) (trace w))
    end.

(** *** The decorator *)

(** The [ModelDecorator] interface.  [DecorateModel(ginContext, model)]
    gets the context and a pointer to the variable that holds the model: it
    may change maps of the heap and may make the variable denote another
    map.  A decorator decorates the model; it is taken not to write the
    response. *)
Record ModelDecorator_interface : Type := {
  DecorateModel : gin.Context -> gmap loc (gmap string value) -> gin_H ->
                  gmap loc (gmap string value) * gin_H
}.

(** *** ginhtmx.go *)

Record HtmxConfig : Type := mkHtmxConfig {
  LayoutTemplateName : string;
  ContentVariableName : string;
  ModelDecorator : option ModelDecorator_interface
}.

Record Htmx : Type := mkHtmx {
  template : option html_template.Template;
  config : HtmxConfig
}.

Definition NewHtmxWithConfig (template : option html_template.Template) (config : HtmxConfig) : Htmx :=
  {| config := config;
     template := template |}.

Definition NewHtmx (template : option html_template.Template) : Htmx :=
  {| config := {| LayoutTemplateName := "layout";
                  ContentVariableName := "Content";
                  ModelDecorator := None |};
     template := template |}.

(** [type buffer struct { buf *[]byte }] with its [Write], which appends. *)
Record buffer : Type := mkBuffer { buf : string }.

#[global] Instance buffer_Writer : Writer buffer :=
  fun w p => mkBuffer (buf w +:+ p).

(** [htmx.config.ModelDecorator.DecorateModel(ginContext, &data)]: the
    value of [data] after the call. *)
Definition decorate (d : ModelDecorator_interface) (data : gin_H) : M gin_H :=
  fun w =>
    let '(h, data') := DecorateModel d (ctx w) (heap w) data in
    Done data' (mkWorld (ctx w) h (trace w ++ [Decorate data])).

Definition renderTemplateToString (htmx : Htmx) (name : string) (data : gin_H) : M string :=
  fun w =>
    let writer := mkBuffer "" in
    match html_template.ExecuteTemplate (template htmx) writer name (entries (heap w) data) with
    | None => Panicked nil_pointer_dereference w
    | Some (writer, _) =>
        Done (buf writer)
             (mkWorld (ctx w) (heap w) (trace w ++ [Execute name (entries (heap w) data)]))
    end.

(** [htmx.template.ExecuteTemplate(ginContext.Writer, name, data)], its
    error dropped. *)
Definition executeToResponse (htmx : Htmx) (name : string) (data : gin_H) : M unit :=
  fun w =>
    match html_template.ExecuteTemplate (template htmx) (gin.Writer (ctx w)) name
            (entries (heap w) data) with
    | None => Panicked nil_pointer_dereference w
    | Some (writer, _) =>
        Done tt
             (mkWorld (gin.mkContext (gin.Request_Header (ctx w)) writer) (heap w)
                      (trace w ++ [Execute name (entries (heap w) data)]))
    end.

(** The loop of [RenderWithStatus]:
    [for _, name := range templateNames { content += ... }]. *)
Fixpoint concatenate (htmx : Htmx) (data : gin_H) (templateNames : list string)
    (content : string) : M string :=
  match templateNames with
  | [] => ret content
  | name :: rest =>
      let! s := renderTemplateToString htmx name data in
      concatenate htmx data rest (content +:+ s)
  end.

(** [RenderWithStatus(ginContext, data, status, templateNames...)], line by
    line.  The trace records the decorator call and each template execution;
    it is not part of the Go state. *)
Definition RenderWithStatus (htmx : Htmx) (data : gin_H) (status : Z)
    (templateNames : list string) : M unit :=
  ginContext_Status status ;;;
  let! hx := ginContext_GetHeader "HX-Request" in
  let isHTMX := negb (String.eqb hx "") in
  let! data :=
    match ModelDecorator (config htmx) with
    | Some d => decorate d data
    | None => ret data
    end in
  let! content := concatenate htmx data templateNames "" in
  if isHTMX then
    ginContext_Data http.StatusOK "text/html; charset=utf-8" content
  else
    mapassign data (ContentVariableName (config htmx)) (template_HTML content) ;;;
    executeToResponse htmx (LayoutTemplateName (config htmx)) data.

Definition Render (htmx : Htmx) (data : gin_H) (templateNames : list string) : M unit :=
  RenderWithStatus htmx data http.StatusOK templateNames.

(** *** What a call sees

    The heap and the value of [data] once the decorator of [htmx], if it has
    one, has run on the context [c], and the event this leaves. *)
Definition decorated (htmx : Htmx) (c : gin.Context) (h : gmap loc (gmap string value))
    (data : gin_H) : gmap loc (gmap string value) * gin_H :=
  match ModelDecorator (config htmx) with
  | Some d => DecorateModel d c h data
  | None => (h, data)
  end.

Definition decoration (htmx : Htmx) (data : gin_H) : list event :=
  match ModelDecorator (config htmx) with
  | Some _ => [Decorate data]
  | None => []
  end.

(** Line 58: does the request carry a non-empty [HX-Request] header? *)
Definition isHTMX (c : gin.Context) : bool :=
  negb (String.eqb (gin.GetHeader c "HX-Request") "").

(** The template executions among the events. *)
Definition executions (tr : list event) : list (string * gmap string value) :=
  omap (fun e => match e with Execute n m => Some (n, m) | Decorate _ => None end) tr.

(** The events a call has added to the trace of [w]. *)
Definition events_of {A : Type} (w : World) (r : outcome A) : list event :=
  drop (length (trace w)) (trace (final r)).

(** Every change the decorator makes to the model is seen by every
    template execution of the call: at a key where the model after the
    decorator differs from the model before it, each executed template
    finds the value the decorator left. *)
Definition decorator_changes_seen (htmx : Htmx) (data : gin_H) (status : Z)
    (templateNames : list string) (w : World) : Prop :=
  let c := gin.Status (ctx w) status in
  let before := entries (heap w) data in
  let after := entries (fst (decorated htmx c (heap w) data))
                       (snd (decorated htmx c (heap w) data)) in
  forall (name : string) (model : gmap string value) (key : string),
    Execute name model ∈ events_of w (RenderWithStatus htmx data status templateNames w) ->
    before !! key ≠ after !! key ->
    model !! key = after !! key.


End ginhtmx.

(** ** Package ginhtmx, the single-template API

    The earlier [ginhtmx.go] that the repository keeps, with
    [RenderTemplateWithStatus] and [RenderTemplate]; it is the API that
    [ginhtmx_test.go] calls.  Its [HtmxConfig] has no decorator.  (The copy
    that names the second field [BodyVariableName] differs in that name
    only.) *)

Module ginhtmx_prev.
Import ginhtmx.

Record HtmxConfig : Type := mkHtmxConfig {
  LayoutTemplateName : string;
  ContentVariableName : string
}.

Record Htmx : Type := mkHtmx {
  template : option html_template.Template;
  config : HtmxConfig
}.

Definition NewHtmxWithConfig (template : option html_template.Template) (config : HtmxConfig) : Htmx :=
  {| config := config;
     template := template |}.

Definition NewHtmx (template : option html_template.Template) : Htmx :=
  {| config := {| LayoutTemplateName := "layout";
                  ContentVariableName := "Content" |};
     template := template |}.

Definition renderTemplateToString (htmx : Htmx) (name : string) (data : gin_H) : M string :=
  fun w =>
    let writer := mkBuffer "" in
    match html_template.ExecuteTemplate (template htmx) writer name (entries (heap w) data) with
    | None => Panicked nil_pointer_dereference w
    | Some (writer, _) =>
        Done (buf writer)
             (mkWorld (ctx w) (heap w) (trace w ++ [Execute name (entries (heap w) data)]))
    end.

(** [htmx.template.ExecuteTemplate(ginContext.Writer, name, model)] on a
    model given by its entries, the error dropped. *)
Definition executeModel (htmx : Htmx) (name : string) (model : gmap string value) : M unit :=
  fun w =>
    match html_template.ExecuteTemplate (template htmx) (gin.Writer (ctx w)) name model with
    | None => Panicked nil_pointer_dereference w
    | Some (writer, _) =>
        Done tt
             (mkWorld (gin.mkContext (gin.Request_Header (ctx w)) writer) (heap w)
                      (trace w ++ [Execute name model]))
    end.

(** [RenderTemplateWithStatus(ginContext, templateName, data, status)].  In
    the full-page branch the layout gets a map literal of its own, whose
    only entry is the content; Go evaluates that argument, hence the call of
    [renderTemplateToString], before it calls [ExecuteTemplate]. *)
Definition RenderTemplateWithStatus (htmx : Htmx) (templateName : string) (data : gin_H)
    (status : Z) : M unit :=
  ginContext_Status status ;;;
  let! hx := ginContext_GetHeader "HX-Request" in
  let isHTMX := negb (String.eqb hx "") in
  if isHTMX then
    fun w => executeModel htmx templateName (entries (heap w) data) w
  else
    let! s := renderTemplateToString htmx templateName data in
    executeModel htmx (LayoutTemplateName (config htmx))
      {[ContentVariableName (config htmx) := template_HTML s]}.

Definition RenderTemplate (htmx : Htmx) (templateName : string) (data : gin_H) : M unit :=
  RenderTemplateWithStatus htmx templateName data http.StatusOK.

End ginhtmx_prev.

(** ** Fixtures, after ginhtmx_test.go *)

Module ginhtmx_test.
Import ginhtmx.

Definition text (v : option value) : string :=
  match v with
  | Some (Str s) => s
  | Some (template_HTML s) => s
  | Some (Bool true) => "true"
  | Some (Bool false) => "false"
  | _ => ""
  end.

(** The templates of the test suite: [layout], [hello] and, for the error
    path, [broken], which fails after its first piece of text.  Any other
    name is unknown to the set. *)
Definition tmpl : html_template.Template :=
  {| html_template.run := fun name data =>
       if decide (name = "layout") then
         (["<html><body><div>Menu Bar Here</div><div>"; text (data !! "Content");
           "</div><div>Footer Here</div></body></html>"], None)
       else if decide (name = "hello") then
         (["<h1 id='greeting'>Hello, "; text (data !! "Name"); "!</h1>"], None)
       else if decide (name = "broken") then
         (["<p>before the failure"], Some "error calling index: index out of range")
       else ([], Some "html/template: no such template") |}.

(** A request without headers, and one sent by HTMX. *)
Definition plainRequest : gin.Context := gin.reset ∅.
Definition htmxRequest : gin.Context := gin.reset {["Hx-Request" := ["true"]]}.

(** [gin.H{'Name': 'Jerry'}] at address 1. *)
Definition jerry : gmap loc (gmap string value) := {[1%positive := {["Name" := Str "Jerry"]}]}.

Definition world (c : gin.Context) : World := mkWorld c jerry [].

(** A decorator that sets one key of the model in place. *)
Definition setKey (key : string) (v : value) : ModelDecorator_interface :=
  {| DecorateModel := fun _ h data =>
       match data with
       | Some l => (<[l := <[key := v]> (entries h data)]> h, data)
       | None => (h, data)
       end |}.

(** The renderer of the test suite with a decorator attached. *)
Definition decoratedHtmx (d : ModelDecorator_interface) : Htmx :=
  NewHtmxWithConfig (Some tmpl)
    {| LayoutTemplateName := "layout";
       ContentVariableName := "Content";
       ModelDecorator := Some d |}.

End ginhtmx_test.

(** * Properties *)

Import ginhtmx.

Section Strings.

Lemma append_cons (c : ascii) (s r : string) : String c s +:+ r = String c (s +:+ r).
Proof. reflexivity. Qed.

Lemma append_nil_l (s : string) : "" +:+ s = s.
Proof. reflexivity. Qed.

Lemma append_nil_r (s : string) : s +:+ "" = s.
Proof.
  induction s as [|c s IH]; [reflexivity|].
  by rewrite append_cons, IH.
Qed.

Lemma append_assoc (a b c : string) : (a +:+ b) +:+ c = a +:+ (b +:+ c).
Proof.
  induction a as [|x a IH]; [reflexivity|].
  by rewrite !append_cons, IH.
Qed.

Lemma joined_cons (s : string) (l : list string) : joined (s :: l) = s +:+ joined l.
Proof. reflexivity. Qed.

Lemma joined_app (l k : list string) : joined (l ++ k) = joined l +:+ joined k.
Proof.
  induction l as [|s l IH]; [reflexivity|].
  by rewrite <- app_comm_cons, !joined_cons, IH, append_assoc.
Qed.

End Strings.

(** ** The two writers *)

Section Writers.

Lemma buffer_pieces (pieces : list string) (b : buffer) :
  buf (fold_left Write pieces b) = buf b +:+ joined pieces.
Proof.
  revert b; induction pieces as [|p pieces IH]; intros b.
  - by rewrite append_nil_r.
  - cbn [fold_left]. rewrite IH, joined_cons.
    unfold Write, buffer_Writer; cbn [buf]. apply append_assoc.
Qed.

Lemma response_Write_body (w : gin.responseWriter) (p : string) :
  gin.body (Write w p) = gin.body w +:+ p.
Proof. unfold Write, gin.responseWriter_Writer, gin.responseWriter_Write, gin.WriteHeaderNow.
       by destruct (gin.Written w). Qed.

Lemma response_Write_status (w : gin.responseWriter) (p : string) :
  gin.status (Write w p) = gin.status w.
Proof. unfold Write, gin.responseWriter_Writer, gin.responseWriter_Write, gin.WriteHeaderNow.
       by destruct (gin.Written w). Qed.



Lemma response_pieces_status (pieces : list string) (w : gin.responseWriter) :
  gin.status (fold_left Write pieces w) = gin.status w.
Proof.
  revert w; induction pieces as [|p pieces IH]; intros w; [done|].
  cbn [fold_left]. by rewrite IH, response_Write_status.
Qed.

End Writers.

(** ** The steps of a render call *)

Section Steps.

Variable t : html_template.Template.
Variable cfg : HtmxConfig.

Let htmx : Htmx := NewHtmxWithConfig (Some t) cfg.

Lemma world_eta (w : World) : mkWorld (ctx w) (heap w) (trace w) = w.
Proof. by destruct w. Qed.

Lemma renderTemplateToString_run (name : string) (data : gin_H) (w : World) :
  renderTemplateToString htmx name data w =
    Done (html_template.output t name (entries (heap w) data))
         (mkWorld (ctx w) (heap w) (trace w ++ [Execute name (entries (heap w) data)])).
Proof.
  unfold renderTemplateToString, html_template.ExecuteTemplate, html_template.output.
  cbn [template htmx NewHtmxWithConfig].
  destruct (html_template.run t name (entries (heap w) data)) as [pieces err].
  by rewrite buffer_pieces.
Qed.

Lemma concatenate_run (data : gin_H) (names : list string) (content : string) (w : World) :
  concatenate htmx data names content w =
    Done (content +:+ joined (map (fun n => html_template.output t n (entries (heap w) data)) names))
         (mkWorld (ctx w) (heap w)
                  (trace w ++ map (fun n => Execute n (entries (heap w) data)) names)).
Proof.
  revert content w; induction names as [|n names IH]; intros content w.
  - cbn. by rewrite append_nil_r, app_nil_r, world_eta.
  - cbn [concatenate]. unfold bind. rewrite renderTemplateToString_run, IH.
    cbn [ctx heap trace map]. by rewrite joined_cons, append_assoc, <- app_assoc.
Qed.

Lemma executeToResponse_run (name : string) (data : gin_H) (w : World) :
  executeToResponse htmx name data w =
    Done tt
      (mkWorld (gin.mkContext (gin.Request_Header (ctx w))
                  (fold_left Write (fst (html_template.run t name (entries (heap w) data)))
                             (gin.Writer (ctx w))))
               (heap w)
               (trace w ++ [Execute name (entries (heap w) data)])).
Proof.
  unfold executeToResponse, html_template.ExecuteTemplate.
  cbn [template htmx NewHtmxWithConfig].
  by destruct (html_template.run t name (entries (heap w) data)) as [pieces err].
Qed.

Lemma entries_insert (h : gmap loc (gmap string value)) (l : loc) (m : gmap string value) :
  entries (<[l := m]> h) (Some l) = m.
Proof. unfold entries. by rewrite lookup_insert_eq. Qed.

(** A whole call, for a renderer that has a template set. *)
Lemma RenderWithStatus_run (data : gin_H) (status : Z) (names : list string) (w : World) :
  let c := gin.Status (ctx w) status in
  let h := fst (decorated htmx c (heap w) data) in
  let d := snd (decorated htmx c (heap w) data) in
  let model := entries h d in
  let content := joined (map (fun n => html_template.output t n model) names) in
  let tr := (trace w ++ decoration htmx data ++ map (fun n => Execute n model) names)%list in
  RenderWithStatus htmx data status names w =
    if isHTMX (ctx w) then
      Done tt (mkWorld (gin.Data c http.StatusOK "text/html; charset=utf-8" content) h tr)
    else
      match d with
      | None => Panicked assignment_to_entry_in_nil_map (mkWorld c h tr)
      | Some l =>
          let augmented := <[ContentVariableName cfg := template_HTML content]> model in
          Done tt
            (mkWorld
               (gin.mkContext (gin.Request_Header c)
                  (fold_left Write
                     (fst (html_template.run t (LayoutTemplateName cfg) augmented))
                     (gin.Writer c)))
               (<[l := augmented]> h)
               (tr ++ [Execute (LayoutTemplateName cfg) augmented]))
      end.
Proof.
  intros c h d model content tr.
  unfold RenderWithStatus, bind at 1 2 3, ginContext_Status, ginContext_GetHeader.
  cbn [ctx heap trace].
  assert (Hdec :
    (match ModelDecorator (config htmx) with
     | Some dm => decorate dm data
     | None => ret data
     end) (mkWorld c (heap w) (trace w)) =
    Done d (mkWorld c h (trace w ++ decoration htmx data))).
  { subst h d. unfold decorated, decoration.
    destruct (ModelDecorator (config htmx)) as [dm|].
    - unfold decorate; cbn [ctx heap trace].
      by destruct (DecorateModel dm c (heap w) data).
    - unfold ret; cbn. by rewrite app_nil_r. }
  unfold bind at 1. fold c. rewrite Hdec.
  unfold bind at 1. rewrite concatenate_run. cbn [ctx heap trace].
  fold model. rewrite append_nil_l. fold content. rewrite <- app_assoc. fold tr.
  change (negb (String.eqb (gin.GetHeader c "HX-Request") "")) with (isHTMX (ctx w)).
  destruct (isHTMX (ctx w)); [reflexivity|].
  unfold bind, mapassign. destruct d as [l|] eqn:Hd; [|reflexivity].
  rewrite executeToResponse_run. cbn [ctx heap trace gin.Request_Header gin.Writer].
  fold model. by rewrite entries_insert.
Qed.

End Steps.

(** ** The response of gin *)

Section Response.

Lemma WriteHeader_body (w : gin.responseWriter) (code : Z) :
  gin.body (gin.WriteHeader w code) = gin.body w.
Proof.
  unfold gin.WriteHeader.
  destruct ((0 <? code) && negb (gin.status w =? code)); [|done].
  by destruct (gin.Written w).
Qed.



Lemma Status_body (c : gin.Context) (code : Z) :
  gin.body (gin.Writer (gin.Status c code)) = gin.body (gin.Writer c).
Proof. unfold gin.Status; cbn. apply WriteHeader_body. Qed.

Lemma writeContentType_body (w : gin.responseWriter) (v : list string) :
  gin.body (gin.writeContentType w v) = gin.body w.
Proof.
  unfold gin.writeContentType.
  by destruct (gin.Header w !! "Content-Type") as [[|? ?]|].
Qed.

(** [Data] with status [200] hands [data] to the writer. *)
Lemma Data_body (c : gin.Context) (contentType data : string) :
  gin.body (gin.Writer (gin.Data c http.StatusOK contentType data))
  = gin.body (gin.Writer c) +:+ data.
Proof.
  unfold gin.Data. change (gin.bodyAllowedForStatus http.StatusOK) with true.
  cbv iota. cbn [gin.Writer].
  change (gin.responseWriter_Write ?w ?p) with (Write w p).
  by rewrite response_Write_body, writeContentType_body, Status_body.
Qed.


Lemma isHTMX_true (c : gin.Context) :
  gin.GetHeader c "HX-Request" ≠ "" -> isHTMX c = true.
Proof.
  intros Hne. unfold isHTMX.
  destruct (String.eqb_spec (gin.GetHeader c "HX-Request") ""); [done|reflexivity].
Qed.

Lemma isHTMX_false (c : gin.Context) :
  gin.GetHeader c "HX-Request" = "" -> isHTMX c = false.
Proof. intros He. unfold isHTMX. by rewrite He. Qed.

Lemma executions_app (l k : list event) :
  executions (l ++ k) = (executions l ++ executions k)%list.
Proof. unfold executions. apply omap_app. Qed.

Lemma executions_decoration (htmx : Htmx) (data : gin_H) :
  executions (decoration htmx data) = [].
Proof. unfold decoration. by destruct (ModelDecorator (config htmx)). Qed.

Lemma executions_Execute (names : list string) (model : gmap string value) :
  executions (map (fun n => Execute n model) names) = map (fun n => (n, model)) names.
Proof.
  induction names as [|n names IH]; [done|].
  cbn [map]. change (executions (?e :: ?l)) with (executions ([e] ++ l)).
  rewrite executions_app, IH. reflexivity.
Qed.

End Response.

(** ** The status of the response *)

Section Status.

Lemma WriteHeader_status (w : gin.responseWriter) (code : Z) :
  gin.Written w = false -> 0 < code -> gin.status (gin.WriteHeader w code) = code.
Proof.
  intros Hw Hcode. unfold gin.WriteHeader.
  destruct (Z.ltb_spec 0 code) as [_|]; [|lia].
  destruct (Z.eqb_spec (gin.status w) code) as [Heq|_]; cbn [negb andb]; [exact Heq|].
  by rewrite Hw.
Qed.

Lemma WriteHeader_Written (w : gin.responseWriter) (code : Z) :
  gin.Written (gin.WriteHeader w code) = gin.Written w.
Proof.
  unfold gin.WriteHeader.
  destruct ((0 <? code) && negb (gin.status w =? code)); [|done].
  by destruct (gin.Written w) eqn:Hw.
Qed.

Lemma writeContentType_status (w : gin.responseWriter) (v : list string) :
  gin.status (gin.writeContentType w v) = gin.status w.
Proof.
  unfold gin.writeContentType.
  by destruct (gin.Header w !! "Content-Type") as [[|? ?]|].
Qed.

(** Whatever status was set before, [Data] with [StatusOK] leaves [200] on
    a response that has not been started. *)
Lemma Data_status (c : gin.Context) (contentType data : string) :
  gin.Written (gin.Writer c) = false ->
  gin.status (gin.Writer (gin.Data c http.StatusOK contentType data)) = http.StatusOK.
Proof.
  intros Hw. unfold gin.Data. change (gin.bodyAllowedForStatus http.StatusOK) with true.
  cbv iota. cbn [gin.Writer].
  change (gin.responseWriter_Write ?w ?p) with (Write w p).
  rewrite response_Write_status, writeContentType_status.
  unfold gin.Status; cbn [gin.Writer]. by apply WriteHeader_status.
Qed.

End Status.

(** ** The claims *)





(** C4 (concatenation order).  The loop of [RenderWithStatus] executes the
    named templates in the order given, each against the same model, and the
    content it produces is the concatenation of their outputs in that order;
    for two names [a] and [b] it is the output of [a] followed by the output
    of [b].  That content is what a call hands on: to the response body in
    fragment mode, to the model under [ContentVariableName] in full-page
    mode. *)
Theorem concatenation_order (t : html_template.Template) (cfg : HtmxConfig)
    (data : gin_H) (w : World) :
  let htmx := NewHtmxWithConfig (Some t) cfg in
  (forall names : list string,
     concatenate htmx data names "" w =
       Done (joined (map (fun n => html_template.output t n (entries (heap w) data)) names))
            (mkWorld (ctx w) (heap w)
                     (trace w ++ map (fun n => Execute n (entries (heap w) data)) names)))
  /\ (forall a b : string,
        concatenate htmx data [a; b] "" w =
          Done (html_template.output t a (entries (heap w) data)
                +:+ html_template.output t b (entries (heap w) data))
               (mkWorld (ctx w) (heap w)
                        (trace w ++ [Execute a (entries (heap w) data);
                                     Execute b (entries (heap w) data)])))
  /\ (forall (status : Z) (names : list string),
        let c := gin.Status (ctx w) status in
        let data' := snd (decorated htmx c (heap w) data) in
        let model := entries (fst (decorated htmx c (heap w) data)) data' in
        let content := joined (map (fun n => html_template.output t n model) names) in
        let r := RenderWithStatus htmx data status names w in
        if isHTMX (ctx w) then
          gin.body (gin.Writer (ctx (final r))) = gin.body (gin.Writer (ctx w)) +:+ content
        else
          forall l : loc, data' = Some l ->
            entries (heap (final r)) (Some l) !! ContentVariableName cfg
            = Some (template_HTML content)).
Proof.
  intros htmx; subst htmx. split; [|split].
  - intros names. by rewrite concatenate_run, append_nil_l.
  - intros a b. rewrite concatenate_run, append_nil_l.
    cbn [map]. by rewrite !joined_cons, append_nil_r.
  - intros status names c data' model content r.
    subst r content model data' c. rewrite RenderWithStatus_run.
    destruct (isHTMX (ctx w)).
    + cbn [final ctx]. by rewrite Data_body, Status_body.
    + intros l Hl. rewrite Hl. cbn [final heap].
      by rewrite entries_insert, lookup_insert_eq.
Qed.



(** The content loop reads the heap and leaves it, and the context, as they
    were, with or without a template set. *)
Lemma concatenate_frame (htmx : Htmx) (data : gin_H) (names : list string)
    (content : string) (w : World) :
  heap (final (concatenate htmx data names content w)) = heap w
  /\ ctx (final (concatenate htmx data names content w)) = ctx w.
Proof.
  revert content w; induction names as [|n names IH]; intros content w; [done|].
  cbn [concatenate]. unfold bind, renderTemplateToString.
  destruct (html_template.ExecuteTemplate (template htmx) (mkBuffer "") n
              (entries (heap w) data)) as [[wr err]|]; [|done].
  match goal with
  | |- context [concatenate _ _ _ ?c ?w'] => destruct (IH c w') as [Hh Hc]
  end.
  by rewrite Hh, Hc.
Qed.

Lemma concatenate_nil (cfg : HtmxConfig) (data : gin_H) (names : list string)
    (content : string) (w : World) :
  concatenate (NewHtmxWithConfig None cfg) data names content w =
    match names with
    | [] => Done content w
    | _ :: _ => Panicked nil_pointer_dereference w
    end.
Proof. by destruct names. Qed.

(** The decorator step of a call, for any renderer. *)
Lemma decorator_step (htmx : Htmx) (data : gin_H) (w : World) :
  (match ModelDecorator (config htmx) with
   | Some d => decorate d data
   | None => ret data
   end) w =
  Done (snd (decorated htmx (ctx w) (heap w) data))
       (mkWorld (ctx w) (fst (decorated htmx (ctx w) (heap w) data))
                (trace w ++ decoration htmx data)).
Proof.
  unfold decorated, decoration.
  destruct (ModelDecorator (config htmx)) as [d|].
  - unfold decorate. by destruct (DecorateModel d (ctx w) (heap w) data).
  - unfold ret; cbn. by rewrite app_nil_r, world_eta.
Qed.

(** C10 (fragment mode does not touch the model).  For a request with a
    non-empty [HX-Request] header, whatever the renderer, the heap of maps
    after the call is the heap the decorator left (the heap before the call
    when there is no decorator): [RenderWithStatus] itself writes no key, in
    particular not [ContentVariableName], into any map. *)
Theorem fragment_leaves_model (htmx : Htmx) (data : gin_H) (status : Z)
    (names : list string) (w : World) :
  gin.GetHeader (ctx w) "HX-Request" ≠ "" ->
  heap (final (RenderWithStatus htmx data status names w))
  = fst (decorated htmx (gin.Status (ctx w) status) (heap w) data).
Proof.
  intros Hhx. unfold RenderWithStatus, bind at 1 2, ginContext_Status, ginContext_GetHeader.
  cbn [ctx heap trace].
  change (negb (String.eqb (gin.GetHeader (gin.Status (ctx w) status) "HX-Request") ""))
    with (isHTMX (ctx w)).
  rewrite (isHTMX_true _ Hhx).
  unfold bind at 1. rewrite decorator_step. cbn [ctx heap trace].
  unfold bind.
  match goal with
  | |- context [concatenate ?a ?b ?c ?d ?e] =>
      pose proof (concatenate_frame a b c d e) as [Hheap _];
      destruct (concatenate a b c d e) as [content w'|p w']
  end; exact Hheap.
Qed.

Lemma fragment_leaves_model_witness :
  let w := ginhtmx_test.world ginhtmx_test.htmxRequest in
  gin.GetHeader (ctx w) "HX-Request" ≠ ""
  /\ heap (final (RenderWithStatus (NewHtmx (Some ginhtmx_test.tmpl)) (Some 1%positive) 200
                    ["hello"] w))
     = ginhtmx_test.jerry.
Proof.
  intros w.
  assert (H1 : gin.GetHeader (ctx w) "HX-Request" ≠ "") by (vm_compute; discriminate).
  split; [exact H1|].
  exact (fragment_leaves_model (NewHtmx (Some ginhtmx_test.tmpl)) (Some 1%positive) 200
           ["hello"] w H1).
Defined.

(** C8 (default configuration).  The renderer of [NewHtmx] is the renderer
    of [NewHtmxWithConfig] with layout name [layout], content variable
    [Content] and no decorator, so every [RenderWithStatus] and [Render] call
    on the one has the outcome of the same call on the other. *)
Theorem NewHtmx_default_config (t : option html_template.Template) :
  let cfg := {| LayoutTemplateName := "layout";
                ContentVariableName := "Content";
                ModelDecorator := None |} in
  NewHtmx t = NewHtmxWithConfig t cfg
  /\ (forall data status names w,
        RenderWithStatus (NewHtmx t) data status names w
        = RenderWithStatus (NewHtmxWithConfig t cfg) data status names w)
  /\ (forall data names w,
        Render (NewHtmx t) data names w = Render (NewHtmxWithConfig t cfg) data names w).
Proof. intros cfg. repeat split. Qed.

(** C5, as stated, fails: a decorator that sets the key [Content] changes
    the model, yet in full-page mode the layout does not find that value
    there, because [RenderWithStatus] has put the content under the same key
    in between. *)
Lemma decorator_change_to_content_key_not_seen :
  ~ decorator_changes_seen
      (ginhtmx_test.decoratedHtmx (ginhtmx_test.setKey "Content" (Str "v")))
      (Some 1%positive) 200 ["hello"] (ginhtmx_test.world ginhtmx_test.plainRequest).
Proof.
  intros Hseen.
  specialize (Hseen "layout"
    (<["Content" := template_HTML "<h1 id='greeting'>Hello, Jerry!</h1>"]>
       (<["Content" := Str "v"]> {["Name" := Str "Jerry"]}))
    "Content").
  assert (Hlayout : Some (template_HTML "<h1 id='greeting'>Hello, Jerry!</h1>") = Some (Str "v")).
  { etransitivity; [|etransitivity; [apply Hseen|]].
    - vm_compute. reflexivity.
    - apply list_elem_of_lookup. exists 2%nat. vm_compute. reflexivity.
    - vm_compute. discriminate.
    - vm_compute. reflexivity. }
  discriminate Hlayout.
Qed.

(** C5, amended (the decorator runs once, first).  With a decorator
    configured, the events of a call are: one [DecorateModel] on the model of
    the caller, then the named templates in order, each executed against the
    model as the decorator left it, then, in full-page mode on a model that
    is a map, the layout, executed against that model with the content put
    under [ContentVariableName].  So every template sees what the decorator
    did, except that the layout finds the content, not the value of the
    decorator, under [ContentVariableName]. *)
Theorem decorator_runs_once_first (t : html_template.Template) (layout key : string)
    (d : ModelDecorator_interface) (data : gin_H) (status : Z) (names : list string)
    (w : World) :
  let htmx := NewHtmxWithConfig (Some t) (mkHtmxConfig layout key (Some d)) in
  let c := gin.Status (ctx w) status in
  let data' := snd (DecorateModel d c (heap w) data) in
  let model := entries (fst (DecorateModel d c (heap w) data)) data' in
  let content := joined (map (fun n => html_template.output t n model) names) in
  let augmented := <[key := template_HTML content]> model in
  trace (final (RenderWithStatus htmx data status names w))
  = (trace w ++ Decorate data :: map (fun n => Execute n model) names
     ++ (if isHTMX (ctx w) then []
         else match data' with
              | Some _ => [Execute layout augmented]
              | None => []
              end))%list
  /\ (forall k : string, k ≠ key -> augmented !! k = model !! k)
  /\ augmented !! key = Some (template_HTML content).
Proof.
  intros htmx c data' model content augmented.
  subst augmented content model data' c htmx.
  split; [|split].
  - rewrite RenderWithStatus_run.
    unfold decorated, decoration. cbn [config NewHtmxWithConfig ModelDecorator].
    destruct (isHTMX (ctx w)); cbn [final trace].
    + by rewrite app_nil_r.
    + destruct (DecorateModel d (gin.Status (ctx w) status) (heap w) data).2;
        cbn [final trace].
      * by rewrite <- !app_assoc.
      * by rewrite app_nil_r.
  - intros k Hk. by rewrite lookup_insert_ne.
  - apply lookup_insert_eq.
Qed.

(** C6, as stated, fails: a renderer is built from a [nil] template set
    without any failure, and its first render, a fragment request without
    template names, completes as well. *)
Lemma nil_template_set_goes_unnoticed :
  exists htmx : Htmx,
    NewHtmx None = htmx
    /\ template htmx = None
    /\ completes (RenderWithStatus htmx (Some 1%positive) 200 []
                    (ginhtmx_test.world ginhtmx_test.htmxRequest)) = true.
Proof. exists (NewHtmx None). repeat split. Qed.

(** C6, amended (a [nil] template set).  The constructors accept a [nil]
    template set and return a renderer holding it; nothing checks it.  A
    render call on such a renderer panics with a nil-pointer dereference as
    soon as it has a template to execute: whenever a template is named, and
    in full-page mode at the layout (or, on a [nil] model, already at the
    assignment of the content).  Only a fragment request without template
    names completes. *)
Theorem nil_template_set_panics_on_first_execution (cfg : HtmxConfig) (data : gin_H)
    (status : Z) (names : list string) (w : World) :
  let htmx := NewHtmxWithConfig None cfg in
  let data' := snd (decorated htmx (gin.Status (ctx w) status) (heap w) data) in
  template htmx = None
  /\ panics (RenderWithStatus htmx data status names w) =
       match names with
       | _ :: _ => Some nil_pointer_dereference
       | [] =>
           if isHTMX (ctx w) then None
           else match data' with
                | Some _ => Some nil_pointer_dereference
                | None => Some assignment_to_entry_in_nil_map
                end
       end.
Proof.
  intros htmx data'. split; [reflexivity|]. subst data'.
  unfold RenderWithStatus, bind at 1 2, ginContext_Status, ginContext_GetHeader.
  cbn [ctx heap trace].
  change (negb (String.eqb (gin.GetHeader (gin.Status (ctx w) status) "HX-Request") ""))
    with (isHTMX (ctx w)).
  unfold bind at 1. rewrite decorator_step. cbn [ctx heap trace].
  unfold bind at 1. subst htmx. rewrite concatenate_nil.
  destruct names as [|n names]; [|reflexivity].
  destruct (isHTMX (ctx w)); [reflexivity|].
  unfold bind, mapassign.
  by destruct (decorated (NewHtmxWithConfig None cfg) (gin.Status (ctx w) status) (heap w) data).2.
Qed.



(** C1 (status).  At a fragment request rendered with status [404] the
    response carries status [200]: the [StatusOK] that the fragment branch
    passes to [Data] replaces the status set first. *)
Theorem fragment_status_is_StatusOK_not_the_argument :
  let r := RenderWithStatus (NewHtmx (Some ginhtmx_test.tmpl)) (Some 1%positive) 404 ["hello"]
             (ginhtmx_test.world ginhtmx_test.htmxRequest) in
  completes r = true
  /\ gin.status (gin.Writer (ctx (final r))) = 200
  /\ gin.sent (gin.Writer (ctx (final r))) = Some 200
  /\ gin.body (gin.Writer (ctx (final r))) = "<h1 id='greeting'>Hello, Jerry!</h1>".
Proof. vm_compute. repeat split. Qed.

(** ** Further properties *)

(** In fragment mode the status of a response that had not been started is
    [200] for every [status] argument: the general form of the evaluation
    above. *)
Lemma fragment_status_general (t : html_template.Template) (cfg : HtmxConfig)
    (data : gin_H) (status : Z) (names : list string) (w : World) :
  gin.GetHeader (ctx w) "HX-Request" ≠ "" ->
  gin.Written (gin.Writer (ctx w)) = false ->
  gin.status (gin.Writer (ctx (final (RenderWithStatus (NewHtmxWithConfig (Some t) cfg)
                                         data status names w))))
  = http.StatusOK.
Proof.
  intros Hhx Hw. rewrite RenderWithStatus_run, (isHTMX_true _ Hhx).
  cbn [final ctx]. apply Data_status.
  unfold gin.Status; cbn [gin.Writer]. by rewrite WriteHeader_Written.
Qed.

(** X1 (the full-page branch keeps the status).  When the [HX-Request]
    header is absent or empty, the response has not been started and
    [status] is positive, the response status after the call is [status],
    whether or not template executions failed and even when the call ends in
    the panic of a [nil] model. *)
Theorem full_page_keeps_status (t : html_template.Template) (cfg : HtmxConfig)
    (data : gin_H) (status : Z) (names : list string) (w : World) :
  gin.GetHeader (ctx w) "HX-Request" = "" ->
  gin.Written (gin.Writer (ctx w)) = false ->
  0 < status ->
  gin.status (gin.Writer (ctx (final (RenderWithStatus (NewHtmxWithConfig (Some t) cfg)
                                         data status names w))))
  = status.
Proof.
  intros Hhx Hw Hpos. rewrite RenderWithStatus_run, (isHTMX_false _ Hhx).
  destruct (decorated (NewHtmxWithConfig (Some t) cfg) (gin.Status (ctx w) status) (heap w) data).2;
    cbn [final ctx gin.Writer].
  - rewrite response_pieces_status. unfold gin.Status; cbn [gin.Writer].
    by apply WriteHeader_status.
  - unfold gin.Status; cbn [gin.Writer]. by apply WriteHeader_status.
Qed.

Lemma full_page_keeps_status_witness :
  let w := ginhtmx_test.world ginhtmx_test.plainRequest in
  gin.GetHeader (ctx w) "HX-Request" = ""
  /\ gin.Written (gin.Writer (ctx w)) = false
  /\ 0 < 404
  /\ gin.status (gin.Writer (ctx (final (RenderWithStatus (NewHtmx (Some ginhtmx_test.tmpl))
                                            (Some 1%positive) 404 ["hello"; "missing"] w))))
     = 404.
Proof.
  intros w.
  assert (H1 : gin.GetHeader (ctx w) "HX-Request" = "") by (vm_compute; reflexivity).
  assert (H2 : gin.Written (gin.Writer (ctx w)) = false) by (vm_compute; reflexivity).
  assert (H3 : 0 < 404) by lia.
  split; [exact H1|]. split; [exact H2|]. split; [exact H3|].
  exact (full_page_keeps_status ginhtmx_test.tmpl (config (NewHtmx None)) (Some 1%positive) 404
           ["hello"; "missing"] w H1 H2 H3).
Defined.

(** ** The mode of a request *)

(** X3 (what counts as an HTMX request).  The test of line 58 holds exactly
    when the header map of the request has, under the canonical name
    [Hx-Request], a list whose first value is not empty.  Later values do
    not count, and neither does an entry stored under another spelling of
    the name. *)
Theorem isHTMX_first_value_of_canonical_key (c : gin.Context) :
  isHTMX c = true
  <-> exists (v : string) (rest : list string),
        gin.Request_Header c !! "Hx-Request" = Some (v :: rest) /\ v ≠ "".
Proof.
  unfold isHTMX, gin.GetHeader, http.Get.
  replace (http.CanonicalHeaderKey "HX-Request") with "Hx-Request"
    by (vm_compute; reflexivity).
  destruct (gin.Request_Header c !! "Hx-Request") as [[|v rest]|] eqn:Hlookup.
  - split; [discriminate|]. intros (v & rest & Heq & _). discriminate Heq.
  - destruct (String.eqb_spec v "") as [->|Hne]; cbn [negb].
    + split; [discriminate|]. intros (v' & rest' & Heq & Hv'). by simplify_eq.
    + split; [|reflexivity]. intros _. by exists v, rest.
  - split; [discriminate|]. intros (v & rest & Heq & _). discriminate Heq.
Qed.

(** ** Calls that end in a panic *)

(** The state of a call up to the branch on the mode, for any renderer. *)
Lemma RenderWithStatus_prefix (htmx : Htmx) (data : gin_H) (status : Z)
    (names : list string) (w : World) :
  RenderWithStatus htmx data status names w =
    let c := gin.Status (ctx w) status in
    let h := fst (decorated htmx c (heap w) data) in
    let d := snd (decorated htmx c (heap w) data) in
    bind (concatenate htmx d names "")
      (fun content =>
         if isHTMX (ctx w) then
           ginContext_Data http.StatusOK "text/html; charset=utf-8" content
         else
           bind (mapassign d (ContentVariableName (config htmx)) (template_HTML content))
             (fun _ => executeToResponse htmx (LayoutTemplateName (config htmx)) d))
      (mkWorld c h (trace w ++ decoration htmx data)).
Proof.
  unfold RenderWithStatus, bind at 1 2, ginContext_Status, ginContext_GetHeader.
  cbn [ctx heap trace].
  change (negb (String.eqb (gin.GetHeader (gin.Status (ctx w) status) "HX-Request") ""))
    with (isHTMX (ctx w)).
  unfold bind at 1. by rewrite decorator_step.
Qed.

(** X4 (a panic leaves the body alone).  Whatever the renderer, when a call
    of [RenderWithStatus] ends in a panic, all it has done to the response
    is the [Status] call of line 57: nothing was written to the body. *)
Theorem panic_after_status_only (htmx : Htmx) (data : gin_H) (status : Z)
    (names : list string) (w : World) :
  completes (RenderWithStatus htmx data status names w) = false ->
  ctx (final (RenderWithStatus htmx data status names w)) = gin.Status (ctx w) status
  /\ gin.body (gin.Writer (ctx (final (RenderWithStatus htmx data status names w))))
     = gin.body (gin.Writer (ctx w)).
Proof.
  intros Hpanic.
  assert (Hctx : ctx (final (RenderWithStatus htmx data status names w))
                 = gin.Status (ctx w) status).
  { pose proof (RenderWithStatus_prefix htmx data status names w) as E.
    cbv zeta in E. unfold bind at 1 in E.
    match type of E with
    | context [concatenate ?a ?b ?c ?d ?e] =>
        pose proof (concatenate_frame a b c d e) as [_ Hc];
        destruct (concatenate a b c d e) as [content w'|p w']
    end; cbn [final ctx] in Hc; [|by rewrite E].
    destruct (isHTMX (ctx w)); [by rewrite E in Hpanic|].
    unfold bind, mapassign in E.
    destruct (decorated htmx (gin.Status (ctx w) status) (heap w) data).2 as [l|];
      [|by rewrite E].
    unfold executeToResponse in E. cbn [ctx heap trace] in E.
    destruct (html_template.ExecuteTemplate _ _ _ _) as [[wr err]|];
      [by rewrite E in Hpanic|by rewrite E]. }
  split; [exact Hctx|]. by rewrite Hctx, Status_body.
Qed.

Lemma panic_after_status_only_witness :
  let r := RenderWithStatus (NewHtmx None) (Some 1%positive) 404 ["hello"]
             (ginhtmx_test.world ginhtmx_test.plainRequest) in
  completes r = false
  /\ gin.status (gin.Writer (ctx (final r))) = 404
  /\ gin.body (gin.Writer (ctx (final r))) = "".
Proof.
  intros r.
  assert (H1 : completes r = false) by (vm_compute; reflexivity).
  destruct (panic_after_status_only (NewHtmx None) (Some 1%positive) 404 ["hello"]
              (ginhtmx_test.world ginhtmx_test.plainRequest) H1) as (Hctx & Hbody).
  split; [exact H1|]. split; [|exact Hbody].
  subst r. rewrite Hctx. vm_compute. reflexivity.
Defined.

(** X5 (a [nil] model).  When the model is [nil] after the decorator step,
    its templates are executed against an empty model.  A fragment request
    completes; a full-page request executes the named templates and then
    panics at the assignment of the content, before the layout. *)
Theorem nil_model (t : html_template.Template) (cfg : HtmxConfig)
    (data : gin_H) (status : Z) (names : list string) (w : World) :
  let htmx := NewHtmxWithConfig (Some t) cfg in
  snd (decorated htmx (gin.Status (ctx w) status) (heap w) data) = None ->
  let r := RenderWithStatus htmx data status names w in
  executions (trace (final r))
  = (executions (trace w) ++ map (fun n => (n, ∅)) names)%list
  /\ panics r = if isHTMX (ctx w) then None else Some assignment_to_entry_in_nil_map.
Proof.
  intros htmx Hnil r. subst r htmx.
  rewrite RenderWithStatus_run, Hnil. cbn [entries].
  destruct (isHTMX (ctx w)); cbn [final trace panics];
    by rewrite !executions_app, executions_decoration, executions_Execute.
Qed.

Lemma nil_model_witness :
  let r := RenderWithStatus (NewHtmx (Some ginhtmx_test.tmpl)) None 200 ["hello"]
             (ginhtmx_test.world ginhtmx_test.plainRequest) in
  executions (trace (final r)) = [("hello", ∅)]
  /\ panics r = Some assignment_to_entry_in_nil_map.
Proof.
  intros r.
  exact (nil_model ginhtmx_test.tmpl (config (NewHtmx None)) None 200 ["hello"]
           (ginhtmx_test.world ginhtmx_test.plainRequest) eq_refl).
Defined.

(** ** What a full-page call changes *)

(** X6 (full-page frame).  In full-page mode the one write of
    [RenderWithStatus] to the heap is the content entry of the map that
    [data] denotes after the decorator step: every other entry of that map
    and every other map, the map of the caller when the decorator has put
    another in its place, is as the decorator step left it. *)
Theorem full_page_changes_one_entry (t : html_template.Template) (cfg : HtmxConfig)
    (data : gin_H) (status : Z) (names : list string) (w : World) (l : loc) :
  gin.GetHeader (ctx w) "HX-Request" = "" ->
  let htmx := NewHtmxWithConfig (Some t) cfg in
  snd (decorated htmx (gin.Status (ctx w) status) (heap w) data) = Some l ->
  let h := fst (decorated htmx (gin.Status (ctx w) status) (heap w) data) in
  let r := RenderWithStatus htmx data status names w in
  (forall k : string, k ≠ ContentVariableName cfg ->
     entries (heap (final r)) (Some l) !! k = entries h (Some l) !! k)
  /\ (forall l' : loc, l' ≠ l -> heap (final r) !! l' = h !! l').
Proof.
  intros Hhx htmx Hd h r. subst r h htmx.
  rewrite RenderWithStatus_run, (isHTMX_false _ Hhx), Hd. cbn [final heap].
  split.
  - intros k Hk. by rewrite entries_insert, lookup_insert_ne.
  - intros l' Hl'. by rewrite lookup_insert_ne.
Qed.

Lemma full_page_changes_one_entry_witness :
  let w := ginhtmx_test.world ginhtmx_test.plainRequest in
  let r := RenderWithStatus (NewHtmx (Some ginhtmx_test.tmpl)) (Some 1%positive) 200 ["hello"] w in
  gin.GetHeader (ctx w) "HX-Request" = ""
  /\ entries (heap (final r)) (Some 1%positive) !! "Name" = Some (Str "Jerry")
  /\ heap (final r) !! 2%positive = None.
Proof.
  intros w r.
  assert (H1 : gin.GetHeader (ctx w) "HX-Request" = "") by (vm_compute; reflexivity).
  destruct (full_page_changes_one_entry ginhtmx_test.tmpl (config (NewHtmx None))
              (Some 1%positive) 200 ["hello"] w 1%positive H1 eq_refl) as (Hkeys & Hmaps).
  split; [exact H1|]. split.
  - etransitivity; [apply Hkeys; discriminate|]. vm_compute. reflexivity.
  - etransitivity; [apply Hmaps; discriminate|]. vm_compute. reflexivity.
Defined.



(** ** Render *)

(** X2 ([Render] answers [200]).  On a response that has not been started,
    [Render] leaves status [200] in either mode, also when template
    executions fail or the call ends in the panic of a [nil] model. *)
Theorem Render_status (t : html_template.Template) (cfg : HtmxConfig)
    (data : gin_H) (names : list string) (w : World) :
  gin.Written (gin.Writer (ctx w)) = false ->
  gin.status (gin.Writer (ctx (final (Render (NewHtmxWithConfig (Some t) cfg) data names w))))
  = 200.
Proof.
  intros Hw. unfold Render. rewrite RenderWithStatus_run.
  assert (Hset : gin.status (gin.Writer (gin.Status (ctx w) http.StatusOK)) = 200).
  { unfold gin.Status; cbn [gin.Writer]. by apply WriteHeader_status. }
  destruct (isHTMX (ctx w)).
  - cbn [final ctx]. apply Data_status.
    unfold gin.Status; cbn [gin.Writer]. by rewrite WriteHeader_Written.
  - destruct (decorated (NewHtmxWithConfig (Some t) cfg) (gin.Status (ctx w) http.StatusOK)
                (heap w) data).2; cbn [final ctx gin.Writer]; [|exact Hset].
    by rewrite response_pieces_status.
Qed.

Lemma Render_status_witness :
  let w := ginhtmx_test.world ginhtmx_test.htmxRequest in
  gin.Written (gin.Writer (ctx w)) = false
  /\ gin.status (gin.Writer (ctx (final (Render (NewHtmx (Some ginhtmx_test.tmpl))
                                            (Some 1%positive) ["hello"; "missing"] w))))
     = 200.
Proof.
  intros w.
  assert (H1 : gin.Written (gin.Writer (ctx w)) = false) by (vm_compute; reflexivity).
  split; [exact H1|].
  exact (Render_status ginhtmx_test.tmpl (config (NewHtmx None)) (Some 1%positive)
           ["hello"; "missing"] w H1).
Defined.

(** ** The single-template API *)

Section SingleTemplate.

Variable t : html_template.Template.
Variable cfg : ginhtmx_prev.HtmxConfig.

Let prev : ginhtmx_prev.Htmx := ginhtmx_prev.NewHtmxWithConfig (Some t) cfg.

Lemma prev_renderTemplateToString_run (name : string) (data : gin_H) (w : World) :
  ginhtmx_prev.renderTemplateToString prev name data w =
    Done (html_template.output t name (entries (heap w) data))
         (mkWorld (ctx w) (heap w) (trace w ++ [Execute name (entries (heap w) data)])).
Proof.
  unfold ginhtmx_prev.renderTemplateToString, html_template.ExecuteTemplate,
    html_template.output.
  cbn [ginhtmx_prev.template prev ginhtmx_prev.NewHtmxWithConfig].
  destruct (html_template.run t name (entries (heap w) data)) as [pieces err].
  by rewrite buffer_pieces.
Qed.

Lemma prev_executeModel_run (name : string) (model : gmap string value) (w : World) :
  ginhtmx_prev.executeModel prev name model w =
    Done tt
      (mkWorld (gin.mkContext (gin.Request_Header (ctx w))
                  (fold_left Write (fst (html_template.run t name model)) (gin.Writer (ctx w))))
               (heap w)
               (trace w ++ [Execute name model])).
Proof.
  unfold ginhtmx_prev.executeModel, html_template.ExecuteTemplate.
  cbn [ginhtmx_prev.template prev ginhtmx_prev.NewHtmxWithConfig].
  by destruct (html_template.run t name model) as [pieces err].
Qed.

(** A whole call of the single-template API, for a renderer that has a
    template set. *)
Lemma RenderTemplateWithStatus_run (name : string) (data : gin_H) (status : Z) (w : World) :
  let c := gin.Status (ctx w) status in
  let model := entries (heap w) data in
  let executed :=
    if isHTMX (ctx w) then [(name, model)]
    else [(name, model);
          (ginhtmx_prev.LayoutTemplateName cfg,
           {[ginhtmx_prev.ContentVariableName cfg
               := template_HTML (html_template.output t name model)]})] in
  ginhtmx_prev.RenderTemplateWithStatus prev name data status w =
    Done tt
      (mkWorld
         (gin.mkContext (gin.Request_Header c)
            (fold_left Write
               (fst (html_template.run t (fst (List.last executed (name, model)))
                                         (snd (List.last executed (name, model)))))
               (gin.Writer c)))
         (heap w)
         (trace w ++ map (fun e => Execute (fst e) (snd e)) executed)).
Proof.
  intros c model executed. subst executed.
  unfold ginhtmx_prev.RenderTemplateWithStatus, bind at 1 2,
    ginContext_Status, ginContext_GetHeader.
  cbn [ctx heap trace].
  change (negb (String.eqb (gin.GetHeader (gin.Status (ctx w) status) "HX-Request") ""))
    with (isHTMX (ctx w)).
  destruct (isHTMX (ctx w)).
  - by rewrite prev_executeModel_run.
  - unfold bind. rewrite prev_renderTemplateToString_run, prev_executeModel_run.
    cbn [ctx heap trace List.last map fst snd]. by rewrite <- app_assoc.
Qed.

End SingleTemplate.

(** X8 (the single-template API keeps the status).  On a response that has
    not been started and for a positive [status],
    [RenderTemplateWithStatus] leaves that status on the response in
    fragment mode as in full-page mode, whether or not a template fails. *)
Theorem RenderTemplateWithStatus_keeps_status (t : html_template.Template)
    (cfg : ginhtmx_prev.HtmxConfig) (name : string) (data : gin_H) (status : Z) (w : World) :
  gin.Written (gin.Writer (ctx w)) = false ->
  0 < status ->
  gin.status (gin.Writer (ctx (final
    (ginhtmx_prev.RenderTemplateWithStatus (ginhtmx_prev.NewHtmxWithConfig (Some t) cfg)
       name data status w))))
  = status.
Proof.
  intros Hw Hpos. rewrite RenderTemplateWithStatus_run. cbn [final ctx gin.Writer].
  rewrite response_pieces_status. unfold gin.Status; cbn [gin.Writer].
  by apply WriteHeader_status.
Qed.

Lemma RenderTemplateWithStatus_keeps_status_witness :
  let w := ginhtmx_test.world ginhtmx_test.htmxRequest in
  gin.Written (gin.Writer (ctx w)) = false
  /\ 0 < 404
  /\ gin.status (gin.Writer (ctx (final
       (ginhtmx_prev.RenderTemplateWithStatus (ginhtmx_prev.NewHtmx (Some ginhtmx_test.tmpl))
          "hello" (Some 1%positive) 404 w))))
     = 404.
Proof.
  intros w.
  assert (H1 : gin.Written (gin.Writer (ctx w)) = false) by (vm_compute; reflexivity).
  assert (H2 : 0 < 404) by lia.
  split; [exact H1|]. split; [exact H2|].
  exact (RenderTemplateWithStatus_keeps_status ginhtmx_test.tmpl
           (ginhtmx_prev.config (ginhtmx_prev.NewHtmx None)) "hello" (Some 1%positive) 404 w
           H1 H2).
Defined.


(** X10 (the single-template API without a template set).  On a renderer
    built from a [nil] template set every call of
    [RenderTemplateWithStatus] panics with a nil-pointer dereference, in
    either mode, having set the status and written nothing. *)
Theorem RenderTemplateWithStatus_nil_template_set (cfg : ginhtmx_prev.HtmxConfig)
    (name : string) (data : gin_H) (status : Z) (w : World) :
  ginhtmx_prev.RenderTemplateWithStatus (ginhtmx_prev.NewHtmxWithConfig None cfg)
    name data status w
  = Panicked nil_pointer_dereference
      (mkWorld (gin.Status (ctx w) status) (heap w) (trace w)).
Proof.
  unfold ginhtmx_prev.RenderTemplateWithStatus, bind at 1 2,
    ginContext_Status, ginContext_GetHeader.
  cbn [ctx heap trace].
  by destruct (negb (String.eqb (gin.GetHeader (gin.Status (ctx w) status) "HX-Request") "")).
Qed.



(** ** The buffer *)

(** X12 (the buffer keeps every write, in order).  Writing pieces of text to
    a [buffer] one after the other leaves it as one [Write] of their
    concatenation does: nothing is dropped, reordered or overwritten, and
    what was in the buffer before stays in front. *)
Theorem buffer_Write_pieces (pieces : list string) (b : buffer) :
  fold_left Write pieces b = Write b (joined pieces)
  /\ buf (fold_left Write pieces b) = buf b +:+ joined pieces.
Proof.
  assert (Hbuf : buf (fold_left Write pieces b) = buf b +:+ joined pieces)
    by apply buffer_pieces.
  split; [|exact Hbuf].
  destruct (fold_left Write pieces b) as [s]. cbn [buf] in Hbuf. subst s.
  reflexivity.
Qed.
